(** * pynotion: payload builders and transport operations of the Notion client

    A shallow embedding of [src/pynotion/__init__.py].

    - Python values are the inductive [pyval]; a [dict] with string keys is a
      [gmap string pyval], so that equality of dictionaries is equality of
      their contents, as Python's [==] on dicts.
    - A call either returns or raises: [result A] with [Return] and [Raise].
    - [query_notion_database] and [update_notion_page] run in a
      state-and-error monad [M] over a [World]: the store of dict objects
      that callers and the HTTP client reach by reference, and the list of
      requests put on the wire.
    - [logger.debug] and [logger.info] write to an external log and are not
      part of the state; where evaluating an argument of a log call can raise
      ([res.json()]) the evaluation is kept. *)

From Stdlib Require Import ZArith String Ascii.
From Stdlib Require Import Floats.PrimFloat.
From stdpp Require Import gmap strings list fin_maps pretty.

Set Warnings "-register-all,-clear-no-such-hyp,-inexact-float".

Local Open Scope string_scope.

(** ** Dates and date-times

    [datetime.date] and [datetime.datetime] of the Python standard library,
    reduced to their calendar and clock fields. *)

Record date := mk_date { year : N; month : N; day : N }.

Record datetime := mk_datetime {
  dt_year : N; dt_month : N; dt_day : N;
  dt_hour : N; dt_minute : N; dt_second : N; dt_microsecond : N
}.

(** [datetime.date()] *)
Definition datetime_date (dt : datetime) : date :=
  {| year := dt_year dt; month := dt_month dt; day := dt_day dt |}.

(** Range of the fields of a [datetime.date]: MINYEAR = 1, MAXYEAR = 9999. *)
Definition date_in_range (d : date) : Prop :=
  (1 <= year d <= 9999)%N /\ (1 <= month d <= 12)%N /\ (1 <= day d <= 31)%N.

(** Range of the calendar fields of a [datetime.datetime], as its
    constructor enforces it. *)
Definition datetime_in_range (dt : datetime) : Prop :=
  (1 <= dt_year dt <= 9999)%N /\ (1 <= dt_month dt <= 12)%N /\
  (1 <= dt_day dt <= 31)%N.

(** ["%0<w>d" % n] for a natural number: decimal digits, padded on the left
    with zeros up to width [w], never truncated. *)
Definition zfill (w : nat) (s : string) : string :=
  String.concat "" (replicate (w - String.length s) "0") +:+ s.

Definition fmt_0d (w : nat) (n : N) : string := zfill w (pretty n).

(** [date.isoformat()]: ["%04d-%02d-%02d" % (year, month, day)] *)
Definition date_isoformat (d : date) : string :=
  fmt_0d 4 (year d) +:+ "-" +:+ fmt_0d 2 (month d) +:+ "-" +:+ fmt_0d 2 (day d).

(** The ISO-8601 calendar date [YYYY-MM-DD], digit by digit. *)
Definition digit (n : N) : ascii := ascii_of_N (48 + n mod 10)%N.

Definition iso8601_date (y m d : N) : string :=
  (String (digit (y / 1000)) (String (digit (y / 100)) (String (digit (y / 10))
  (String (digit y) (String "-" (String (digit (m / 10)) (String (digit m)
  (String "-" (String (digit (d / 10)) (String (digit d) EmptyString))))))))))%N.

(** ** The sort direction

    [class SortDirection(Enum)] with members [ascending = ("ascending",)] and
    [descending = "descending"]. *)

Inductive SortDirection := ascending | descending.

Definition SortDirection_name (d : SortDirection) : string :=
  match d with
  | ascending => "ascending"
  | descending => "descending"
  end.

(** [str.split(sep)] for a one-character separator *)
Fixpoint split_on (sep : ascii) (s : string) : list string :=
  match s with
  | EmptyString => [EmptyString]
  | String c s' =>
      if Ascii.eqb c sep then EmptyString :: split_on sep s'
      else match split_on sep s' with
           | [] => [String c EmptyString]
           | w :: ws => String c w :: ws
           end
  end.

(** [Enum.__str__]: the class name, a dot, the member name *)
Definition Enum_str (d : SortDirection) : string :=
  "SortDirection." +:+ SortDirection_name d.

(** [SortDirection.__str__]: [super().__str__().split(".")[-1]] *)
Definition SortDirection_str (d : SortDirection) : string :=
  List.last (split_on "." (Enum_str d)) "".

(** ** Python values *)

Inductive pyval :=
| PNone
| PBool (b : bool)
| PInt (z : Z)
| PFloat (f : float)
| PStr (s : string)
| PDate (d : date)
| PDatetime (dt : datetime)
| PSortDirection (d : SortDirection)
| PTuple (l : list pyval)
| PList (l : list pyval)
| PDict (d : gmap string pyval).

(** The values of the two enumeration members, as the class body binds them. *)
Definition SortDirection_value (d : SortDirection) : pyval :=
  match d with
  | ascending => PTuple [PStr "ascending"]
  | descending => PStr "descending"
  end.

(** Truth value testing, [bool(v)]. A float is false when it compares equal
    to zero (both signed zeros; a NaN is true); dates, date-times and plain
    [Enum] members are always true. *)
Definition truthy (v : pyval) : bool :=
  match v with
  | PNone => false
  | PBool b => b
  | PInt z => negb (Z.eqb z 0)
  | PFloat f => negb (PrimFloat.eqb f 0%float)
  | PStr s => negb (String.eqb s "")
  | PDate _ | PDatetime _ | PSortDirection _ => true
  | PTuple l | PList l => negb (Nat.eqb (length l) 0)
  | PDict d => negb (Nat.eqb (size d) 0)
  end.

(** [a or b] *)
Definition py_or (a b : pyval) : pyval := if truthy a then a else b.

(** [isinstance(v, SortDirection)], [isinstance(v, datetime)],
    [isinstance(v, str)] *)
Definition isinstance_SortDirection (v : pyval) : bool :=
  match v with PSortDirection _ => true | _ => false end.

Definition isinstance_datetime (v : pyval) : bool :=
  match v with PDatetime _ => true | _ => false end.

Definition isinstance_str (v : pyval) : bool :=
  match v with PStr _ => true | _ => false end.

(** ** Exceptions and results *)

Inductive exn :=
| ValueError (arg : pyval)
| TypeError (arg : pyval)
| ConnectionError
| Timeout
| HTTPError (status : Z)
| JSONDecodeError.

Inductive result (A : Type) : Type :=
| Return (a : A)
| Raise (e : exn).
Arguments Return {A} a.
Arguments Raise {A} e.

#[global] Instance result_ret : MRet result := fun _ a => Return a.
#[global] Instance result_bind : MBind result := fun _ _ f r =>
  match r with
  | Return a => f a
  | Raise e => Raise e
  end.

Definition is_ValueError (e : exn) : bool :=
  match e with ValueError _ => true | _ => false end.

Definition is_TypeError (e : exn) : bool :=
  match e with TypeError _ => true | _ => false end.

(** ** The page property *)

Record NotionPageProperty := mk_property { name : string; value : pyval }.

(** ** Payload builders *)

(** [build_single_sorter(property_name, direction)].
    After the [isinstance] test [direction] is a member [d]; the statement
    [direction = direction or SortDirection.ascending] keeps it when it is
    true, and [sorter["sorts"].append(...)] extends the empty list. *)
Definition build_single_sorter (property_name direction : pyval) : result pyval :=
  match direction with
  | PSortDirection d =>
      if negb (truthy property_name) then
        Raise (ValueError (PStr "Property name can't be empty"))
      else
        let d := if truthy (PSortDirection d) then d else ascending in
        let sorts : list pyval := [] in
        let sorts := (sorts ++
          [PDict (<["property" := property_name]>
                 (<["direction" := PStr (SortDirection_str d)]> ∅))])%list in
        Return (PDict {["sorts" := PList sorts]})
  | _ => Raise (TypeError (PStr "Direction must be an instance of SortDirection"))
  end.

(** The default of the second parameter is [SortDirection.ascending]. *)
Definition build_single_sorter_default (property_name : pyval) : result pyval :=
  build_single_sorter property_name (PSortDirection ascending).

(** [build_equal_filter(property_name, value)] *)
Definition build_equal_filter (property_name v : pyval) : result pyval :=
  if negb (truthy property_name) then
    Raise (ValueError (PStr "Property name can't be empty"))
  else if negb (truthy v) then
    Raise (ValueError (PStr "Value can't be empty"))
  else
    let inner : gmap string pyval := <["property" := property_name]> ∅ in
    let inner :=
      match v with
      | PDatetime dt =>
          <["date" := PDict {["equals" := PStr (date_isoformat (datetime_date dt))]}]> inner
      | _ => inner
      end in
    let inner :=
      match v with
      | PStr _ => <["rich_text" := PDict {["equals" := v]}]> inner
      | _ => inner
      end in
    Return (PDict {["filter" := PDict inner]}).

(** The loop of [build_update_properties]:
    [ret["properties"][p.name] = p.value] for each [p] in order. *)
Definition update_loop (acc : gmap string pyval) (properties : list NotionPageProperty)
  : gmap string pyval :=
  foldl (fun m p => <[name p := value p]> m) acc properties.

(** [build_update_properties(properties)] *)
Definition build_update_properties (properties : list NotionPageProperty) : result pyval :=
  if Nat.eqb (length properties) 0 then
    Raise (ValueError (PStr "properties can't be empty"))
  else
    Return (PDict {["properties" := PDict (update_loop ∅ properties)]}).

(** ** Request assembly *)

Definition NOTION_VERSION : string := "2022-06-28".
Definition NOTION_API_BASE_URL : string := "https://api.notion.com".
Definition NOTION_API_VERSION : string := "v1".

(** A parameter of type [str | None] as a Python value. *)
Definition pyval_of_opt (o : option string) : pyval :=
  match o with
  | Some s => PStr s
  | None => PNone
  end.

(** [a or b] on [str | None] *)
Definition opt_or (a b : option string) : option string :=
  if truthy (pyval_of_opt a) then a else b.

(** [f"{o}"] for [o : str | None]: [str(None)] is ["None"]. *)
Definition format_opt (o : option string) : string :=
  match o with
  | Some s => s
  | None => "None"
  end.

(** [a | b] on dicts: a new dict with the entries of both, those of [b]
    winning on common keys (stdpp's union is biased to the left). *)
Definition dict_or (a b : gmap string pyval) : gmap string pyval := b ∪ a.

(** [_log_headers(headers)] *)
Definition _log_headers (headers : gmap string pyval) : gmap string pyval :=
  filter (fun kv => kv.1 <> "Authorization") headers.

(** [build_url(route)]: ["/".join([base, version, route])] *)
Definition build_url (route : string) : string :=
  String.concat "/" [NOTION_API_BASE_URL; NOTION_API_VERSION; route].

(** A response of the HTTP client library: its status code and what
    [res.json()] gives, the decoded body or an exception. *)
Record Response := mk_response { status_code : Z; json : result pyval }.

(** [Response.raise_for_status()]: an [HTTPError] for a 4xx or 5xx status. *)
Definition raise_for_status (res : Response) : result unit :=
  if (400 <=? status_code res)%Z && (status_code res <? 600)%Z
  then Raise (HTTPError (status_code res))
  else Return tt.

(** ** The store of dict objects and the wire *)

Abbreviation loc := positive.

Record Request := mk_request {
  req_method : string;
  req_url : string;
  req_json : gmap string pyval;
  req_headers : gmap string pyval
}.

(** The store maps a reference to the entries of the dict it denotes. The
    entries are values: the code under study writes to no nested object. *)
Record World := mk_world {
  heap : gmap loc (gmap string pyval);
  sent : list Request
}.

Definition M (A : Type) : Type := World -> World * result A.

#[global] Instance M_ret : MRet M := fun _ a w => (w, Return a).
#[global] Instance M_bind : MBind M := fun _ _ f m w =>
  match m w with
  | (w', Return a) => f a w'
  | (w', Raise e) => (w', Raise e)
  end.

Definition raise {A : Type} (e : exn) : M A := fun w => (w, Raise e).

Definition lift {A : Type} (r : result A) : M A := fun w => (w, r).

(** A dict display or a dict-valued operator creates a new object. *)
Definition new_dict (d : gmap string pyval) : M loc := fun w =>
  let l := fresh (dom (heap w)) in
  ({| heap := <[l := d]> (heap w); sent := sent w |}, Return l).

(** Use of an argument as a dict. The store holds the dict objects only; a
    reference outside it stands for an argument that is no dict, on which the
    operator [|] raises [TypeError]. *)
Definition read_dict (l : loc) : M (gmap string pyval) := fun w =>
  match heap w !! l with
  | Some d => (w, Return d)
  | None => (w, Raise (TypeError PNone))
  end.

(** The HTTP client: given the URL and references to the body and header
    dicts it may read and write the store, and it answers with a response or
    raises. *)
Definition transport : Type :=
  string -> loc -> loc -> World -> gmap loc (gmap string pyval) * result Response.

(** [requests.<method>(url, json=payload, headers=headers)]: the request as
    it is at the time of the call goes on the wire, then the client runs. *)
Definition http_send (method : string) (client : transport)
    (url : string) (payload headers : loc) : M Response := fun w =>
  match heap w !! payload, heap w !! headers with
  | Some body, Some hdrs =>
      let req := {| req_method := method; req_url := url;
                    req_json := body; req_headers := hdrs |} in
      let w1 := {| heap := heap w; sent := sent w ++ [req] |} in
      let (h', r) := client url payload headers w1 in
      ({| heap := h'; sent := sent w1 |}, r)
  | _, _ => (w, Raise (TypeError PNone))
  end.

(** The two default arguments [filter: dict = {}] and [sorter: dict = {}] are
    two dict objects created once, when the function is defined, and shared
    by all calls that omit the argument. *)
Definition default_filter : loc := 1%positive.
Definition default_sorter : loc := 2%positive.

Definition initial_world : World :=
  {| heap := <[default_filter := ∅]> (<[default_sorter := ∅]> ∅); sent := [] |}.

(** A client that answers 200 with an empty JSON object, and one that also
    overwrites the body object it was handed. *)
Definition ok_response : Response :=
  {| status_code := 200; json := Return (PDict ∅) |}.

Definition client_ok : transport := fun _ _ _ w => (heap w, Return ok_response).

Definition client_clobber : transport := fun _ payload _ w =>
  (<[payload := ∅]> (heap w), Return ok_response).

(** A client whose call raises, as a mock with a [side_effect], and one that
    answers every request with the same response, as a mock with a
    [return_value]. *)
Definition client_raising (e : exn) : transport := fun _ _ _ w => (heap w, Raise e).

Definition client_answering (res : Response) : transport := fun _ _ _ w =>
  (heap w, Return res).

Definition not_found_response : Response :=
  {| status_code := 404; json := Return (PDict ∅) |}.

Definition undecodable_response : Response :=
  {| status_code := 200; json := Raise JSONDecodeError |}.

(** A client that answers 404 to the requests for one URL and 200 to all
    others. *)
Definition client_missing (missing : string) : transport := fun url _ _ w =>
  (heap w, Return (if String.eqb url missing then not_found_response
                   else ok_response)).

(** The entries of a sequence of properties, as key and value pairs. *)
Definition property_items (properties : list NotionPageProperty)
  : list (string * pyval) :=
  (fun p => (name p, value p)) <$> properties.

(** ** Definitions used in the statements *)

Fixpoint N_below (k : nat) : list N :=
  match k with
  | O => []
  | S k' => N.of_nat k' :: N_below k'
  end.

Definition digits4 (n : N) : string :=
  (String (digit (n / 1000)) (String (digit (n / 100))
  (String (digit (n / 10)) (String (digit n) EmptyString))))%N.

Definition digits2 (n : N) : string :=
  (String (digit (n / 10)) (String (digit n) EmptyString))%N.

(** The values [build_equal_filter] takes for empty: the empty string, the
    integer zero, a float equal to zero, and [None]. *)
Definition empty_value (v : pyval) : Prop :=
  v = PStr "" \/ v = PInt 0 \/
  (exists f, v = PFloat f /\ PrimFloat.eqb f 0%float = true) \/ v = PNone.

(** The last entry of a sequence of properties that bears the name [k]. *)
Definition last_named (k : string) (properties : list NotionPageProperty)
  : option NotionPageProperty :=
  last (filter (fun p => name p = k) properties).

(** The bearer string read literally from the description of
    [build_headers]: the supplied key whenever one is supplied, the
    configured key otherwise. *)
Definition Authorization_if_supplied (configured api_key : option string) : string :=
  "Bearer " +:+ format_opt (match api_key with
                            | Some k => Some k
                            | None => configured
                            end).

(** A sequence of calls of [query_notion_database], by their arguments. *)
Record query_call := mk_call {
  call_database_id : option string;
  call_filter : option loc;
  call_sorter : option loc;
  call_api_key : option string
}.

(** Sample data: the values of the test suite, and a store with the two
    default dicts, a filter fragment and a sorter fragment. *)
Definition example_datetime : datetime :=
  {| dt_year := 2023; dt_month := 4; dt_day := 29;
     dt_hour := 10; dt_minute := 30; dt_second := 0; dt_microsecond := 0 |}.

Definition example_properties : list NotionPageProperty :=
  [ {| name := "Streak"; value := PInt 1 |};
    {| name := "Name"; value := PStr "value" |};
    {| name := "Streak"; value := PInt 2 |} ].

Definition example_filter : gmap string pyval :=
  {["filter" := PDict {["property" := PStr "Habit";
                        "rich_text" := PDict {["equals" := PStr "teste"]}]}]}.

Definition example_sorter : gmap string pyval :=
  {["sorts" := PList [PDict {["property" := PStr "Date";
                              "direction" := PStr "descending"]}]]}.

Definition example_world : World :=
  {| heap := <[3%positive := example_filter]>
             (<[4%positive := example_sorter]> (heap initial_world));
     sent := [] |}.

(** * The operations over the configuration and the HTTP client *)

Section Client.

(** [NOTION_API_KEY = os.environ.get("NOTION_API_KEY")] *)
Variable NOTION_API_KEY : option string.

(** [requests.post] *)
Variable requests_post : transport.

(** [build_headers(api_key)] *)
Definition build_headers (api_key : option string) : gmap string pyval :=
  <["Authorization" := PStr ("Bearer " +:+ format_opt (opt_or api_key NOTION_API_KEY))]>
  (<["Notion-Version" := PStr NOTION_VERSION]>
  (<["Content-Type" := PStr "application/json"]> ∅)).

(** [query_notion_database(database_id, filter, sorter, api_key)]; [None]
    for [filter] or [sorter] is the call that omits the argument. *)
Definition query_notion_database (database_id : option string)
    (filter sorter : option loc) (api_key : option string) : M Response :=
  if negb (truthy (pyval_of_opt database_id)) then
    raise (ValueError (pyval_of_opt database_id))
  else
    headers ← new_dict (build_headers api_key);
    f ← read_dict (default default_filter filter);
    s ← read_dict (default default_sorter sorter);
    payload ← new_dict (dict_or f s);
    let databases_api_url :=
      build_url ("databases/" +:+ format_opt database_id +:+ "/query") in
    res ← http_send "POST" requests_post databases_api_url payload headers;
    _ ← lift (raise_for_status res);
    _ ← lift (json res);
    mret res.

Definition run_call (c : query_call) (w : World) : World :=
  (query_notion_database (call_database_id c) (call_filter c) (call_sorter c)
     (call_api_key c) w).1.

Definition run_calls (cs : list query_call) (w : World) : World :=
  foldl (fun w c => run_call c w) w cs.

(** [requests.patch] *)
Variable requests_patch : transport.

(** [update_notion_page(page_id, properties, api_key)]. The fragment that
    [build_update_properties] returns is a dict; its entries enter the store
    as a new object, before the headers do. *)
Definition update_notion_page (page_id : option string)
    (properties : list NotionPageProperty) (api_key : option string) : M Response :=
  let url := build_url ("pages/" +:+ format_opt page_id) in
  fragment ← lift (build_update_properties properties);
  payload ← match fragment with
            | PDict d => new_dict d
            | _ => raise (TypeError PNone)
            end;
  headers ← new_dict (build_headers api_key);
  res ← http_send "PATCH" requests_patch url payload headers;
  _ ← lift (raise_for_status res);
  mret res.

(** * Properties of the builders *)

(** ** Truth values *)

Lemma truthy_PStr (s : string) : truthy (PStr s) = true <-> s <> "".
Proof.
  simpl. destruct (String.eqb_spec s "") as [->|Hne]; simpl; split; congruence.
Qed.

Lemma truthy_PStr_nonempty (s : string) : s <> "" -> truthy (PStr s) = true.
Proof. apply truthy_PStr. Qed.

Lemma truthy_PDatetime (dt : datetime) : truthy (PDatetime dt) = true.
Proof. reflexivity. Qed.

Lemma truthy_PSortDirection (d : SortDirection) : truthy (PSortDirection d) = true.
Proof. reflexivity. Qed.

(** Replace the truth value of a non-empty string wherever a builder tests it. *)
Ltac truthy_str H :=
  rewrite ?(truthy_PStr_nonempty _ H); cbn [negb].

(** ** The sort direction renders as its lowercase member name *)

Lemma SortDirection_str_name (d : SortDirection) :
  SortDirection_str d = SortDirection_name d.
Proof. destruct d; reflexivity. Qed.

Lemma split_on_nonempty (sep : ascii) (s : string) : split_on sep s <> [].
Proof.
  destruct s as [|c s]; simpl; [discriminate|].
  destruct (Ascii.eqb c sep); [discriminate|].
  destruct (split_on sep s); discriminate.
Qed.

(** ** Calendar dates in ISO-8601 form *)

Lemma N_below_spec (k : nat) (n : N) : (n < N.of_nat k)%N -> n ∈ N_below k.
Proof.
  induction k as [|k IH]; intros Hn; [lia|].
  simpl. destruct (decide (n = N.of_nat k)) as [->|Hne].
  - left.
  - right. apply IH. lia.
Qed.

Lemma fmt_04d_check :
  forallb (fun n => String.eqb (fmt_0d 4 n) (digits4 n)) (N_below (N.to_nat 10000)) = true.
Proof. vm_compute. reflexivity. Qed.

Lemma fmt_02d_check :
  forallb (fun n => String.eqb (fmt_0d 2 n) (digits2 n)) (N_below (N.to_nat 100)) = true.
Proof. vm_compute. reflexivity. Qed.

Lemma fmt_04d (n : N) : (n < 10000)%N -> fmt_0d 4 n = digits4 n.
Proof.
  intros Hn. pose proof fmt_04d_check as Hc.
  rewrite forallb_forall in Hc. apply String.eqb_eq, Hc.
  apply list_elem_of_In, N_below_spec. lia.
Qed.

Lemma fmt_02d (n : N) : (n < 100)%N -> fmt_0d 2 n = digits2 n.
Proof.
  intros Hn. pose proof fmt_02d_check as Hc.
  rewrite forallb_forall in Hc. apply String.eqb_eq, Hc.
  apply list_elem_of_In, N_below_spec. lia.
Qed.

Lemma date_isoformat_iso8601 (d : date) :
  date_in_range d -> date_isoformat d = iso8601_date (year d) (month d) (day d).
Proof.
  intros (Hy & Hm & Hd). unfold date_isoformat.
  rewrite fmt_04d, !fmt_02d by lia. reflexivity.
Qed.

Lemma date_isoformat_length (d : date) :
  date_in_range d -> String.length (date_isoformat d) = 10%nat.
Proof. intros H. rewrite date_isoformat_iso8601 by done. reflexivity. Qed.

(** ** build_single_sorter *)

(** C7: for a non-empty property name and a member of the enumeration,
    [build_single_sorter] returns [{"sorts": [{"property": property_name,
    "direction": d}]}] with exactly one entry, where [d] is the lowercase
    member name, ["ascending"] or ["descending"]. *)
Theorem build_single_sorter_fragment (property_name : string) (d : SortDirection) :
  property_name <> "" ->
  build_single_sorter (PStr property_name) (PSortDirection d) =
    Return (PDict {["sorts" :=
      PList [PDict {["property" := PStr property_name;
                     "direction" := PStr (match d with
                                          | ascending => "ascending"
                                          | descending => "descending"
                                          end)]}]]}).
Proof.
  intros Hne. unfold build_single_sorter. truthy_str Hne.
  rewrite SortDirection_str_name. destruct d; reflexivity.
Qed.

(** C8: the direction is validated first. A direction that is not a member
    of the enumeration raises [TypeError] whatever the property name is, an
    empty one included; a member with an empty property name raises
    [ValueError]. *)
Theorem build_single_sorter_validation_order (property_name direction : pyval) :
  (isinstance_SortDirection direction = false ->
   build_single_sorter property_name direction =
     Raise (TypeError (PStr "Direction must be an instance of SortDirection"))) /\
  (isinstance_SortDirection direction = true ->
   truthy property_name = false ->
   build_single_sorter property_name direction =
     Raise (ValueError (PStr "Property name can't be empty"))).
Proof.
  split.
  - intros Hd. destruct direction; try discriminate Hd; reflexivity.
  - intros Hd Hp. destruct direction; try discriminate Hd.
    simpl. rewrite Hp. reflexivity.
Qed.

(** ** build_equal_filter *)

(** C1: for a non-empty property name, a date-time value yields the kind
    ["date"] with the calendar date of the value, its year, month and day,
    in the ISO-8601 form [YYYY-MM-DD], whatever its time of day is; and a
    non-empty string yields the kind ["rich_text"] with the string itself. *)
Theorem build_equal_filter_kinds (property_name : string) :
  property_name <> "" ->
  (forall dt : datetime,
     datetime_in_range dt ->
     build_equal_filter (PStr property_name) (PDatetime dt) =
       Return (PDict {["filter" :=
         PDict {["property" := PStr property_name;
                 "date" := PDict {["equals" :=
                    PStr (iso8601_date (dt_year dt) (dt_month dt) (dt_day dt))]}]}]})) /\
  (forall s : string,
     s <> "" ->
     build_equal_filter (PStr property_name) (PStr s) =
       Return (PDict {["filter" :=
         PDict {["property" := PStr property_name;
                 "rich_text" := PDict {["equals" := PStr s]}]}]})).
Proof.
  intros Hne. split.
  - intros dt Hdt. unfold build_equal_filter. truthy_str Hne.
    rewrite (date_isoformat_iso8601 (datetime_date dt) Hdt). reflexivity.
  - intros s Hs. unfold build_equal_filter. truthy_str Hne. truthy_str Hs.
    reflexivity.
Qed.

Lemma empty_value_falsy (v : pyval) : empty_value v -> truthy v = false.
Proof.
  intros [-> | [-> | [(f & -> & Hf) | ->]]]; simpl; try reflexivity.
  by rewrite Hf.
Qed.

(** C2: [build_equal_filter] raises [ValueError] when the property name is
    empty or [None] and, for a property name that is not empty, when the
    value is the empty string, a numeric zero or [None]; no fragment is
    returned then. *)
Theorem build_equal_filter_rejects (property_name v : pyval) :
  (property_name = PStr "" \/ property_name = PNone ->
   build_equal_filter property_name v =
     Raise (ValueError (PStr "Property name can't be empty"))) /\
  (truthy property_name = true ->
   empty_value v ->
   build_equal_filter property_name v =
     Raise (ValueError (PStr "Value can't be empty"))).
Proof.
  split.
  - intros [-> | ->]; reflexivity.
  - intros Hp Hv. unfold build_equal_filter.
    rewrite Hp, (empty_value_falsy _ Hv). reflexivity.
Qed.

(** C9: for a non-empty property name and a true value that is neither a
    string nor a date-time, [build_equal_filter] does not raise: it returns
    [{"filter": {"property": property_name}}], with neither a ["date"] nor a
    ["rich_text"] entry. *)
Theorem build_equal_filter_other_kinds (property_name : string) (v : pyval) :
  property_name <> "" ->
  truthy v = true ->
  isinstance_str v = false ->
  isinstance_datetime v = false ->
  build_equal_filter (PStr property_name) v =
    Return (PDict {["filter" := PDict {["property" := PStr property_name]}]}) /\
  ({["property" := PStr property_name]} : gmap string pyval) !! "date" = None /\
  ({["property" := PStr property_name]} : gmap string pyval) !! "rich_text" = None.
Proof.
  intros Hne Hv Hs Hd. split; [|split; reflexivity].
  unfold build_equal_filter. truthy_str Hne. rewrite Hv. simpl.
  destruct v; try discriminate Hs; try discriminate Hd; reflexivity.
Qed.

(** ** build_update_properties *)

Lemma update_loop_cons (acc : gmap string pyval) (p : NotionPageProperty)
    (ps : list NotionPageProperty) :
  update_loop acc (p :: ps) = update_loop (<[name p := value p]> acc) ps.
Proof. reflexivity. Qed.

Lemma last_named_cons (k : string) (p : NotionPageProperty)
    (ps : list NotionPageProperty) :
  last_named k (p :: ps) =
    match last_named k ps with
    | Some q => Some q
    | None => if decide (name p = k) then Some p else None
    end.
Proof.
  unfold last_named. rewrite filter_cons.
  destruct (decide (name p = k)) as [Hk|Hk]; [|by destruct (last _)].
  destruct (filter _ ps) as [|q qs] eqn:Hf; [done|].
  simpl. by destruct (last (q :: qs)) eqn:Hl; [|apply last_None in Hl].
Qed.

(** Each key holds the value written last, or what the accumulator held. *)
Lemma update_loop_lookup (ps : list NotionPageProperty) :
  forall (acc : gmap string pyval) (k : string),
    update_loop acc ps !! k =
      match last_named k ps with
      | Some p => Some (value p)
      | None => acc !! k
      end.
Proof.
  induction ps as [|p ps IH]; intros acc k; [done|].
  rewrite update_loop_cons, IH, last_named_cons.
  destruct (last_named k ps); [done|].
  destruct (decide (name p = k)) as [<-|Hk].
  - by rewrite lookup_insert_eq.
  - by rewrite lookup_insert_ne.
Qed.

Lemma update_loop_dom (ps : list NotionPageProperty) :
  forall acc : gmap string pyval,
    dom (update_loop acc ps) = dom acc ∪ list_to_set (name <$> ps).
Proof.
  induction ps as [|p ps IH]; intros acc.
  - simpl. set_solver.
  - rewrite update_loop_cons, IH, dom_insert_L, fmap_cons. set_solver.
Qed.

(** C3: [build_update_properties] raises [ValueError] on the empty sequence;
    on a non-empty one it returns [{"properties": m}] where [m] holds, for
    each name of the sequence, the value of the last entry with that name,
    and has no other key. *)
Theorem build_update_properties_last_write_wins (properties : list NotionPageProperty) :
  build_update_properties [] =
    Raise (ValueError (PStr "properties can't be empty")) /\
  (properties <> [] ->
   exists m : gmap string pyval,
     build_update_properties properties =
       Return (PDict {["properties" := PDict m]}) /\
     (forall k : string, m !! k = value <$> last_named k properties) /\
     dom m = list_to_set (name <$> properties)).
Proof.
  split; [reflexivity|].
  intros Hne. exists (update_loop ∅ properties). split; [|split].
  - unfold build_update_properties. by destruct properties.
  - intros k. rewrite update_loop_lookup, lookup_empty.
    by destruct (last_named k properties).
  - rewrite update_loop_dom. set_solver.
Qed.

(** * Request assembly and the database query *)

(** ** build_headers *)

Lemma opt_or_supplied (k : string) (o : option string) :
  k <> "" -> opt_or (Some k) o = Some k.
Proof. intros Hk. unfold opt_or, pyval_of_opt. by rewrite (truthy_PStr_nonempty _ Hk). Qed.

Lemma opt_or_absent (a o : option string) :
  a = None \/ a = Some "" -> opt_or a o = o.
Proof. by intros [-> | ->]. Qed.

Lemma _log_headers_lookup (headers : gmap string pyval) (k : string) :
  _log_headers headers !! k =
    if decide (k = "Authorization") then None else headers !! k.
Proof.
  unfold _log_headers. destruct (decide (k = "Authorization")) as [->|Hk].
  - apply map_lookup_filter_None. right. intros v _ Hv. by apply Hv.
  - destruct (headers !! k) as [v|] eqn:Hv.
    + by apply map_lookup_filter_Some.
    + apply map_lookup_filter_None. by left.
Qed.

(** C6, as the code has it: the mapping has exactly the three keys; the
    bearer string carries [api_key] when a non-empty one is supplied and the
    configured key otherwise, an absent one rendered as it is; nothing is
    rejected; the redacted mapping has no [Authorization] entry, only the
    two fixed entries, so no entry of it holds the bearer string, and an
    entry holds the key value only when the key is itself one of the two
    fixed strings. *)
Theorem build_headers_three_entries (api_key : option string) :
  dom (build_headers api_key) =
    ({["Authorization"; "Notion-Version"; "Content-Type"]} : gset string) /\
  (forall k : string,
     api_key = Some k -> k <> "" ->
     build_headers api_key !! "Authorization" = Some (PStr ("Bearer " +:+ k))) /\
  (api_key = None \/ api_key = Some "" ->
   build_headers api_key !! "Authorization" =
     Some (PStr ("Bearer " +:+ format_opt NOTION_API_KEY))) /\
  build_headers api_key !! "Notion-Version" = Some (PStr "2022-06-28") /\
  build_headers api_key !! "Content-Type" = Some (PStr "application/json") /\
  _log_headers (build_headers api_key) !! "Authorization" = None /\
  _log_headers (build_headers api_key) =
    {["Notion-Version" := PStr "2022-06-28";
      "Content-Type" := PStr "application/json"]} /\
  (forall (h : string) (v : pyval),
     _log_headers (build_headers api_key) !! h = Some v ->
     let key := format_opt (opt_or api_key NOTION_API_KEY) in
     v <> PStr ("Bearer " +:+ key) /\
     (v = PStr key -> key = "2022-06-28" \/ key = "application/json")).
Proof.
  assert (Hlog : _log_headers (build_headers api_key) =
                 {["Notion-Version" := PStr "2022-06-28";
                   "Content-Type" := PStr "application/json"]}).
  { apply map_eq. intros k. rewrite _log_headers_lookup.
    destruct (decide (k = "Authorization")) as [->|Hk]; [done|].
    unfold build_headers. by rewrite lookup_insert_ne. }
  split_and!.
  - unfold build_headers. rewrite !dom_insert_L. set_solver.
  - intros k -> Hk. unfold build_headers.
    by rewrite lookup_insert_eq, opt_or_supplied.
  - intros Ha. unfold build_headers.
    by rewrite lookup_insert_eq, opt_or_absent.
  - reflexivity.
  - reflexivity.
  - by rewrite _log_headers_lookup.
  - exact Hlog.
  - intros h v Hv key. rewrite Hlog in Hv.
    change ("Bearer " +:+ key) with (String "B" ("earer " +:+ key)).
    destruct (decide (h = "Notion-Version")) as [->|Hn].
    + rewrite lookup_insert_eq in Hv. injection Hv as <-.
      split; [discriminate|]. intros Hk. left. congruence.
    + rewrite lookup_insert_ne in Hv by done.
      destruct (decide (h = "Content-Type")) as [->|Hc].
      * rewrite lookup_singleton_eq in Hv. injection Hv as <-.
        split; [discriminate|]. intros Hk. right. congruence.
      * by rewrite lookup_singleton_ne in Hv.
Qed.

(** ** query_notion_database *)

Lemma fresh_not_allocated (h : gmap loc (gmap string pyval)) (l : loc) :
  is_Some (h !! l) -> l <> fresh (dom h).
Proof. intros Hl ->. apply (is_fresh (dom h)). by apply elem_of_dom. Qed.

Lemma lookup_new_dict (h : gmap loc (gmap string pyval)) (l : loc)
    (d d' : gmap string pyval) :
  h !! l = Some d -> <[fresh (dom h) := d']> h !! l = Some d.
Proof.
  intros Hl. rewrite lookup_insert_ne; [done|].
  apply not_eq_sym, fresh_not_allocated. by rewrite Hl.
Qed.

Lemma dict_or_lookup (a b : gmap string pyval) (k : string) :
  dict_or a b !! k =
    match b !! k with
    | Some v => Some v
    | None => a !! k
    end.
Proof.
  unfold dict_or. rewrite lookup_union. destruct (b !! k), (a !! k); done.
Qed.

Lemma dict_or_empty : dict_or ∅ ∅ = ∅.
Proof. unfold dict_or. apply (left_id_L ∅ (∪)). Qed.

Lemma dict_or_dom (a b : gmap string pyval) : dom (dict_or a b) = dom a ∪ dom b.
Proof. unfold dict_or. rewrite dom_union_L. set_solver. Qed.

(** The state after a call that passes validation with dict arguments: the
    headers and the body are two new objects, and one request went out. *)
Lemma query_notion_database_run (database_id : string) (filter sorter : option loc)
    (api_key : option string) (w : World) (f s : gmap string pyval) :
  database_id <> "" ->
  heap w !! default default_filter filter = Some f ->
  heap w !! default default_sorter sorter = Some s ->
  let lh := fresh (dom (heap w)) in
  let h1 := <[lh := build_headers api_key]> (heap w) in
  let lp := fresh (dom h1) in
  let h2 := <[lp := dict_or f s]> h1 in
  let url := build_url ("databases/" +:+ database_id +:+ "/query") in
  let req := {| req_method := "POST"; req_url := url;
                req_json := dict_or f s; req_headers := build_headers api_key |} in
  let out := requests_post url lp lh {| heap := h2; sent := (sent w ++ [req])%list |} in
  exists r : result Response,
    query_notion_database (Some database_id) filter sorter api_key w =
      ({| heap := out.1; sent := (sent w ++ [req])%list |}, r).
Proof.
  intros Hid Hf Hs lh h1 lp h2 url req out.
  unfold query_notion_database, pyval_of_opt. truthy_str Hid.
  unfold mbind, M_bind, new_dict, read_dict, http_send, lift. cbn [heap sent].
  fold lh. fold h1.
  assert (Hf1 : h1 !! default default_filter filter = Some f)
    by by apply lookup_new_dict.
  assert (Hs1 : h1 !! default default_sorter sorter = Some s)
    by by apply lookup_new_dict.
  rewrite Hf1. cbn [heap sent]. rewrite Hs1. cbn [heap sent]. fold lp. fold h2.
  assert (Hlh : h1 !! lh = Some (build_headers api_key))
    by apply lookup_insert_eq.
  assert (Hp : h2 !! lp = Some (dict_or f s)) by apply lookup_insert_eq.
  assert (Hh : h2 !! lh = Some (build_headers api_key))
    by by apply lookup_new_dict.
  rewrite Hp, Hh. cbn [format_opt]. fold url. fold req. fold out.
  destruct out as [h' [res|e]]; cbn [fst]; [|by eexists].
  destruct (raise_for_status res); [|by eexists].
  destruct (json res); by eexists.
Qed.

(** C4: for a non-empty database id and two dicts, the body that goes on
    the wire is the key-wise union of [filter] and [sorter]: its keys are
    those of either argument, and on every key of [sorter] it holds the
    value of [sorter], on every other key the value of [filter]. *)
Theorem query_notion_database_body (database_id : string) (filter sorter : option loc)
    (api_key : option string) (w : World) (f s : gmap string pyval) :
  database_id <> "" ->
  heap w !! default default_filter filter = Some f ->
  heap w !! default default_sorter sorter = Some s ->
  exists req : Request,
    sent (query_notion_database (Some database_id) filter sorter api_key w).1 =
      (sent w ++ [req])%list /\
    req_method req = "POST" /\
    req_url req =
      "https://api.notion.com/v1/databases/" +:+ database_id +:+ "/query" /\
    req_json req = dict_or f s /\
    dom (req_json req) = dom f ∪ dom s /\
    (forall (k : string) (v : pyval),
       s !! k = Some v -> req_json req !! k = Some v) /\
    (forall k : string, s !! k = None -> req_json req !! k = f !! k).
Proof.
  intros Hid Hf Hs.
  destruct (query_notion_database_run _ _ _ api_key _ _ _ Hid Hf Hs) as [r ->].
  cbn [fst sent]. eexists. split; [reflexivity|].
  cbn [req_method req_url req_json]. split_and!; try reflexivity.
  - apply dict_or_dom.
  - intros k v Hk. by rewrite dict_or_lookup, Hk.
  - intros k Hk. by rewrite dict_or_lookup, Hk.
Qed.

(** C5: for an empty or absent database id the call raises [ValueError]
    and leaves the world as it was: nothing is sent. *)
Theorem query_notion_database_empty_id (database_id : option string)
    (filter sorter : option loc) (api_key : option string) (w : World) :
  database_id = None \/ database_id = Some "" ->
  query_notion_database database_id filter sorter api_key w =
    (w, Raise (ValueError (pyval_of_opt database_id))) /\
  sent (query_notion_database database_id filter sorter api_key w).1 = sent w.
Proof. intros [-> | ->]; split; reflexivity. Qed.

(** The HTTP client writes at most to the two objects it is handed: every
    other object of the store is after the request as it was before. *)
Hypothesis requests_post_frame :
  forall (url : string) (payload headers : loc) (w : World) (l : loc),
    l <> payload -> l <> headers -> is_Some (heap w !! l) ->
    (requests_post url payload headers w).1 !! l = heap w !! l.

Lemma run_call_frame (c : query_call) (w : World) (l : loc) (d : gmap string pyval) :
  heap w !! l = Some d -> heap (run_call c w) !! l = Some d.
Proof.
  intros Hl. unfold run_call, query_notion_database.
  destruct (truthy (pyval_of_opt (call_database_id c))); cbn [negb]; [|done].
  unfold mbind, M_bind, new_dict, read_dict, http_send, lift. cbn [heap sent].
  set (lh := fresh (dom (heap w))).
  set (h1 := <[lh := build_headers (call_api_key c)]> (heap w)).
  assert (Hl1 : h1 !! l = Some d) by by apply lookup_new_dict.
  destruct (h1 !! default default_filter (call_filter c)) as [f|];
    cbn [heap sent fst]; [|done].
  destruct (h1 !! default default_sorter (call_sorter c)) as [s|];
    cbn [heap sent fst]; [|done].
  set (lp := fresh (dom h1)). set (h2 := <[lp := dict_or f s]> h1).
  assert (Hl2 : h2 !! l = Some d) by by apply lookup_new_dict.
  assert (Hlp : l <> lp) by (apply fresh_not_allocated; by rewrite Hl1).
  assert (Hlh : l <> lh) by (apply fresh_not_allocated; by rewrite Hl).
  assert (Hp : h2 !! lp = Some (dict_or f s)) by apply lookup_insert_eq.
  assert (Hh : h2 !! lh = Some (build_headers (call_api_key c))).
  { apply lookup_new_dict, lookup_insert_eq. }
  rewrite Hp, Hh.
  match goal with
  | |- context [requests_post ?u lp lh ?w1] =>
      pose proof (requests_post_frame u lp lh w1 l Hlp Hlh) as Hfr;
      destruct (requests_post u lp lh w1) as [h' r]
  end.
  cbn [fst heap] in Hfr. rewrite Hl2 in Hfr. specialize (Hfr (ltac:(by eexists))).
  destruct r as [res|e]; [|done].
  destruct (raise_for_status res); [|done].
  by destruct (json res).
Qed.

Lemma run_calls_frame (cs : list query_call) :
  forall (w : World) (l : loc) (d : gmap string pyval),
    heap w !! l = Some d -> heap (run_calls cs w) !! l = Some d.
Proof.
  induction cs as [|c cs IH]; intros w l d Hl; [done|].
  apply (IH (run_call c w)). by apply run_call_frame.
Qed.

(** C10: [query_notion_database] leaves its [filter] and [sorter] arguments
    as they were, the shared default dicts included, since headers and body
    are new objects; after any sequence of calls every dict that existed
    before is unchanged, so nothing builds up in the defaults: they are
    still empty, and a call that omits both arguments still sends the empty
    body. *)
Theorem query_notion_database_no_mutation (database_id : option string)
    (filter sorter : option loc) (api_key : option string) (w : World)
    (f s : gmap string pyval) :
  heap w !! default default_filter filter = Some f ->
  heap w !! default default_sorter sorter = Some s ->
  let w' := (query_notion_database database_id filter sorter api_key w).1 in
  heap w' !! default default_filter filter = Some f /\
  heap w' !! default default_sorter sorter = Some s /\
  (forall (cs : list query_call) (l : loc) (d : gmap string pyval),
     heap w !! l = Some d -> heap (run_calls cs w) !! l = Some d) /\
  (forall cs : list query_call,
     heap (run_calls cs initial_world) !! default_filter = Some ∅ /\
     heap (run_calls cs initial_world) !! default_sorter = Some ∅) /\
  (forall (cs : list query_call) (id : string) (key : option string),
     id <> "" ->
     exists req : Request,
       sent (query_notion_database (Some id) None None key
               (run_calls cs initial_world)).1 =
         (sent (run_calls cs initial_world) ++ [req])%list /\
       req_json req = ∅).
Proof.
  intros Hf Hs w'.
  pose (c := {| call_database_id := database_id; call_filter := filter;
                call_sorter := sorter; call_api_key := api_key |}).
  split_and!.
  - by apply (run_call_frame c).
  - by apply (run_call_frame c).
  - intros cs l d. apply run_calls_frame.
  - intros cs. split; by apply run_calls_frame.
  - intros cs id key Hid.
    destruct (query_notion_database_run id None None key
                (run_calls cs initial_world) ∅ ∅ Hid) as [r ->];
      [by apply run_calls_frame..|].
    eexists. split; [reflexivity|]. apply dict_or_empty.
Qed.

End Client.

(** * Further properties of the builders *)

(** ** build_equal_filter on every input *)

(** X1: [build_equal_filter] raises exactly when the property name or the
    value is false in Python's sense, which takes in [False] and the empty
    list, tuple and dict besides the empty string, zero and [None]; what it
    raises is always a [ValueError]. *)
Theorem build_equal_filter_raises_iff (property_name v : pyval) :
  ((exists e : exn, build_equal_filter property_name v = Raise e) <->
   truthy property_name = false \/ truthy v = false) /\
  (forall e : exn,
     build_equal_filter property_name v = Raise e -> is_ValueError e = true).
Proof.
  unfold build_equal_filter.
  destruct (truthy property_name) eqn:Hp, (truthy v) eqn:Hv; cbn [negb].
  - split.
    + split; [intros [e He]; discriminate He | intros [H | H]; discriminate H].
    + intros e He. discriminate He.
  - split; [split; eauto|]. intros e He. by injection He as <-.
  - split; [split; eauto|]. intros e He. by injection He as <-.
  - split; [split; eauto|]. intros e He. by injection He as <-.
Qed.

(** X2: a fragment that [build_equal_filter] returns has the one key
    ["filter"]; under it the property name is held as it was passed, string
    or not; a ["date"] entry is there exactly for a date-time value and a
    ["rich_text"] entry exactly for a string, so never both; and there is no
    other entry. *)
Theorem build_equal_filter_shape (property_name v frag : pyval) :
  build_equal_filter property_name v = Return frag ->
  exists inner : gmap string pyval,
    frag = PDict {["filter" := PDict inner]} /\
    inner !! "property" = Some property_name /\
    (is_Some (inner !! "date") <-> isinstance_datetime v = true) /\
    (is_Some (inner !! "rich_text") <-> isinstance_str v = true) /\
    ~ (is_Some (inner !! "date") /\ is_Some (inner !! "rich_text")) /\
    dom inner ⊆ ({["property"; "date"; "rich_text"]} : gset string).
Proof.
  unfold build_equal_filter.
  destruct (truthy property_name); cbn [negb]; [|discriminate].
  destruct (truthy v); cbn [negb]; [|discriminate].
  intros [= <-]. eexists. split; [reflexivity|].
  destruct v; cbn [isinstance_datetime isinstance_str];
    (split_and!;
     [ reflexivity
     | split; [intros [x Hx]; discriminate Hx || reflexivity
              | intros Hx; discriminate Hx || by eexists]
     | split; [intros [x Hx]; discriminate Hx || reflexivity
              | intros Hx; discriminate Hx || by eexists]
     | intros [[x Hx] [y Hy]]; discriminate Hx || discriminate Hy
     | rewrite ?dom_insert_L; set_solver ]).
Qed.

(** ** build_single_sorter on every input *)

(** X3: [build_single_sorter] returns exactly when the direction is a member
    of the enumeration and the property name is true; the entry then holds
    the property name as it was passed, string or not, and with the
    direction omitted the entry is ascending. *)
Theorem build_single_sorter_returns_iff (property_name direction : pyval) :
  ((exists frag : pyval, build_single_sorter property_name direction = Return frag) <->
   isinstance_SortDirection direction = true /\ truthy property_name = true) /\
  (forall d : SortDirection,
     direction = PSortDirection d ->
     truthy property_name = true ->
     build_single_sorter property_name direction =
       Return (PDict {["sorts" :=
         PList [PDict {["property" := property_name;
                        "direction" := PStr (SortDirection_name d)]}]]}) /\
     build_single_sorter_default property_name =
       Return (PDict {["sorts" :=
         PList [PDict {["property" := property_name;
                        "direction" := PStr "ascending"]}]]})).
Proof.
  split.
  - split.
    + intros [frag Hfrag]. unfold build_single_sorter in Hfrag.
      destruct direction; try discriminate Hfrag.
      destruct (truthy property_name); [done | discriminate Hfrag].
    + intros [Hd Hp]. destruct direction; try discriminate Hd.
      unfold build_single_sorter. rewrite Hp. by eexists.
  - intros d -> Hp. unfold build_single_sorter_default, build_single_sorter.
    rewrite Hp. cbn [negb truthy]. by rewrite !SortDirection_str_name.
Qed.

(** ** build_update_properties as a map built from the entries *)

Lemma property_items_keys (ps : list NotionPageProperty) :
  (property_items ps).*1 = name <$> ps.
Proof. unfold property_items. rewrite <- list_fmap_compose. done. Qed.

(** The loop gives the map of the entries read from the last one backwards,
    laid over the accumulator. *)
Lemma update_loop_list_to_map (ps : list NotionPageProperty) :
  forall acc : gmap string pyval,
    update_loop acc ps = list_to_map (reverse (property_items ps)) ∪ acc.
Proof.
  induction ps as [|p ps IH]; intros acc.
  - simpl. by rewrite (left_id_L ∅ (∪)).
  - rewrite update_loop_cons, IH. unfold property_items.
    rewrite fmap_cons, reverse_cons, list_to_map_app. cbn [list_to_map foldr].
    rewrite <- (assoc_L (∪)). f_equal.
    rewrite insert_union_singleton_l.
    by rewrite <- insert_union_singleton_l, insert_empty, <- insert_union_singleton_l.
Qed.

Lemma update_loop_app (ps qs : list NotionPageProperty) :
  update_loop ∅ (ps ++ qs) = dict_or (update_loop ∅ ps) (update_loop ∅ qs).
Proof.
  unfold dict_or. rewrite !update_loop_list_to_map, !(right_id_L ∅ (∪)).
  unfold property_items. by rewrite fmap_app, reverse_app, list_to_map_app.
Qed.

(** X4: updating with one sequence followed by another gives the merge of
    the two update maps in which the second wins, Python's [a | b]. *)
Theorem build_update_properties_app (ps qs : list NotionPageProperty) :
  ps <> [] -> qs <> [] ->
  exists a b : gmap string pyval,
    build_update_properties ps = Return (PDict {["properties" := PDict a]}) /\
    build_update_properties qs = Return (PDict {["properties" := PDict b]}) /\
    build_update_properties (ps ++ qs) =
      Return (PDict {["properties" := PDict (dict_or a b)]}).
Proof.
  intros Hps Hqs. exists (update_loop ∅ ps), (update_loop ∅ qs).
  unfold build_update_properties. rewrite update_loop_app.
  destruct ps as [|p ps]; [done|]. destruct qs as [|q qs]; [done|].
  done.
Qed.

(** X5: when no name occurs twice, the order of the entries does not
    matter: any rearrangement of the sequence gives the same fragment. *)
Theorem build_update_properties_permutation (ps qs : list NotionPageProperty) :
  NoDup (name <$> ps) -> ps ≡ₚ qs ->
  build_update_properties ps = build_update_properties qs.
Proof.
  intros Hnd Hperm. unfold build_update_properties.
  rewrite <- (Permutation_length Hperm).
  destruct (Nat.eqb (length ps) 0); [done|].
  rewrite !update_loop_list_to_map, !(right_id_L ∅ (∪)). do 4 f_equal.
  apply list_to_map_proper.
  - by rewrite fmap_reverse, property_items_keys, reverse_Permutation.
  - rewrite !reverse_Permutation. unfold property_items. by rewrite Hperm.
Qed.

(** X6: the update map has at most as many keys as the sequence has
    entries, and exactly as many when no name occurs twice: a shorter map
    tells that an entry was overwritten. *)
Theorem build_update_properties_size (properties : list NotionPageProperty)
    (m : gmap string pyval) :
  build_update_properties properties = Return (PDict {["properties" := PDict m]}) ->
  size m <= length properties /\
  (NoDup (name <$> properties) -> size m = length properties).
Proof.
  unfold build_update_properties.
  destruct (Nat.eqb (length properties) 0); [discriminate|].
  intros Hm.
  assert (Hd : ({["properties" := PDict (update_loop ∅ properties)]}
                : gmap string pyval) = {["properties" := PDict m]}) by congruence.
  apply (f_equal (lookup "properties")) in Hd.
  rewrite !lookup_singleton_eq in Hd.
  assert (Hu : update_loop ∅ properties = m) by congruence. subst m. clear Hm Hd.
  rewrite <- (size_dom (D:=gset string)), update_loop_dom.
  rewrite dom_empty_L, (left_id_L ∅ (∪)). split.
  - rewrite <- (length_fmap name properties).
    generalize (name <$> properties). intros l.
    induction l as [|x l IH]; [done|].
    cbn [list_to_set foldr length].
    rewrite size_union_alt, size_singleton.
    assert (size (list_to_set l ∖ {[x]} : gset string) <= size (list_to_set l : gset string))
      by (apply subseteq_size; set_solver).
    lia.
  - intros Hnd. rewrite size_list_to_set by done. apply length_fmap.
Qed.

(** ** The fragments of the two query builders side by side *)

(** X7: a filter fragment and a sorter fragment have the single keys
    ["filter"] and ["sorts"], so their merge holds each of them whole and
    does not depend on which comes first: the merge in
    [query_notion_database] never drops part of what the builders made. *)
Theorem build_fragments_merge (property_name v sort_name direction : pyval)
    (f s : gmap string pyval) :
  build_equal_filter property_name v = Return (PDict f) ->
  build_single_sorter sort_name direction = Return (PDict s) ->
  dom f = ({["filter"]} : gset string) /\
  dom s = ({["sorts"]} : gset string) /\
  dict_or f s !! "filter" = f !! "filter" /\
  dict_or f s !! "sorts" = s !! "sorts" /\
  dom (dict_or f s) = ({["filter"; "sorts"]} : gset string) /\
  dict_or f s = dict_or s f.
Proof.
  intros Hf Hs.
  assert (Hdf : dom f = ({["filter"]} : gset string)).
  { unfold build_equal_filter in Hf.
    destruct (truthy property_name); [|discriminate Hf].
    destruct (truthy v); [|discriminate Hf]. cbn [negb] in Hf.
    match type of Hf with
    | Return (PDict ?d) = _ => assert (Hfi : f = d) by congruence
    end.
    by rewrite Hfi, dom_singleton_L. }
  assert (Hds : dom s = ({["sorts"]} : gset string)).
  { unfold build_single_sorter in Hs. destruct direction; try discriminate Hs.
    destruct (truthy sort_name); [|discriminate Hs]. cbn [negb] in Hs.
    match type of Hs with
    | Return (PDict ?d) = _ => assert (Hsi : s = d) by congruence
    end.
    by rewrite Hsi, dom_singleton_L. }
  assert (Hdisj : s ##ₘ f).
  { apply map_disjoint_dom. rewrite Hdf, Hds. set_solver. }
  split_and!; try done.
  - rewrite dict_or_lookup.
    assert (Hn : s !! "filter" = None).
    { apply not_elem_of_dom. rewrite Hds. set_solver. }
    by rewrite Hn.
  - rewrite dict_or_lookup. destruct (s !! "sorts") eqn:Hk; [done|].
    apply not_elem_of_dom in Hk. rewrite Hds in Hk. set_solver.
  - rewrite dict_or_dom, Hdf, Hds. done.
  - unfold dict_or. by apply map_union_comm.
Qed.

(** * Further properties of request assembly and of the two operations *)

Section ClientFacts.

Variable NOTION_API_KEY : option string.
Variables requests_post requests_patch : transport.

Local Abbreviation query_database :=
  (query_notion_database NOTION_API_KEY requests_post).
Local Abbreviation update_page :=
  (update_notion_page NOTION_API_KEY requests_patch).
Local Abbreviation headers_for := (build_headers NOTION_API_KEY).

(** ** _log_headers on every mapping *)

(** X8: [_log_headers] takes the ["Authorization"] entry away and nothing
    else, whatever mapping it is given; redacting twice is redacting once;
    and the test on the key is exact, so an entry spelled ["authorization"]
    stays in the redacted mapping. *)
Theorem _log_headers_delete (headers : gmap string pyval) :
  _log_headers headers = delete "Authorization" headers /\
  _log_headers (_log_headers headers) = _log_headers headers /\
  dom (_log_headers headers) = dom headers ∖ {["Authorization"]} /\
  _log_headers headers !! "authorization" = headers !! "authorization".
Proof.
  assert (Hdel : forall h : gmap string pyval,
             _log_headers h = delete "Authorization" h).
  { intros h. apply map_eq. intros k. rewrite _log_headers_lookup.
    destruct (decide (k = "Authorization")) as [->|Hk].
    - by rewrite lookup_delete_eq.
    - by rewrite lookup_delete_ne. }
  split_and!.
  - apply Hdel.
  - rewrite !Hdel. apply delete_delete_eq.
  - rewrite Hdel. apply dom_delete_L.
  - by rewrite _log_headers_lookup.
Qed.

(** ** build_url *)

Lemma string_app_nil (b : string) : "" +:+ b = b.
Proof. reflexivity. Qed.

Lemma string_app_cons (c : ascii) (a b : string) :
  String c a +:+ b = String c (a +:+ b).
Proof. reflexivity. Qed.

Lemma string_length_app (a b : string) :
  String.length (a +:+ b) = String.length a + String.length b.
Proof.
  induction a as [|c a IH].
  - by rewrite string_app_nil.
  - rewrite string_app_cons. simpl. by rewrite IH.
Qed.

Lemma string_app_inj_r (c a b : string) : a +:+ c = b +:+ c -> a = b.
Proof.
  revert b. induction a as [|x a IH]; intros [|y b] Heq; [done| | |].
  - apply (f_equal String.length) in Heq.
    rewrite !string_length_app in Heq. simpl in Heq. lia.
  - apply (f_equal String.length) in Heq.
    rewrite !string_length_app in Heq. simpl in Heq. lia.
  - rewrite !string_app_cons in Heq. injection Heq as -> Heq.
    f_equal. by apply IH.
Qed.

(** X9: [build_url] puts the route, as it is, after
    ["https://api.notion.com/v1/"]; so two routes give the same URL only when
    they are the same route, and two database ids give the same query URL
    only when they are the same id. *)
Theorem build_url_injective (r1 r2 : string) :
  build_url r1 = "https://api.notion.com/v1/" +:+ r1 /\
  (build_url r1 = build_url r2 <-> r1 = r2) /\
  (build_url ("databases/" +:+ r1 +:+ "/query") =
     build_url ("databases/" +:+ r2 +:+ "/query") <-> r1 = r2).
Proof.
  assert (Hinj : forall a b : string, build_url a = build_url b -> a = b).
  { intros a b Heq.
    by apply (inj (String.app "https://api.notion.com/v1/")) in Heq. }
  split_and!; [reflexivity | split; [apply Hinj | by intros ->] |].
  split; [|by intros ->].
  intros Heq%Hinj. apply (inj (String.app "databases/")) in Heq.
  by apply string_app_inj_r in Heq.
Qed.

(** ** query_notion_database: what the caller gets *)

(** What the call gives once validation is passed: the state of
    [query_notion_database_run], and the answer of the client taken through
    [raise_for_status] and [res.json()]. *)
Lemma query_notion_database_result (database_id : string) (filter sorter : option loc)
    (api_key : option string) (w : World) (f s : gmap string pyval) :
  database_id <> "" ->
  heap w !! default default_filter filter = Some f ->
  heap w !! default default_sorter sorter = Some s ->
  let lh := fresh (dom (heap w)) in
  let h1 := <[lh := headers_for api_key]> (heap w) in
  let lp := fresh (dom h1) in
  let h2 := <[lp := dict_or f s]> h1 in
  let url := build_url ("databases/" +:+ database_id +:+ "/query") in
  let req := {| req_method := "POST"; req_url := url;
                req_json := dict_or f s; req_headers := headers_for api_key |} in
  let out := requests_post url lp lh {| heap := h2; sent := (sent w ++ [req])%list |} in
  query_database (Some database_id) filter sorter api_key w =
    ({| heap := out.1; sent := (sent w ++ [req])%list |},
     res ← out.2; _ ← raise_for_status res; _ ← json res; Return res).
Proof.
  intros Hid Hf Hs lh h1 lp h2 url req out.
  unfold query_notion_database, pyval_of_opt.
  rewrite (truthy_PStr_nonempty _ Hid). cbn [negb].
  unfold mbind at 1 2 3 4 5 6 7. unfold M_bind, new_dict, read_dict, http_send, lift.
  cbn [heap sent]. fold lh. fold h1.
  assert (Hf1 : h1 !! default default_filter filter = Some f)
    by by apply lookup_new_dict.
  assert (Hs1 : h1 !! default default_sorter sorter = Some s)
    by by apply lookup_new_dict.
  rewrite Hf1. cbn [heap sent]. rewrite Hs1. cbn [heap sent]. fold lp. fold h2.
  assert (Hp : h2 !! lp = Some (dict_or f s)) by apply lookup_insert_eq.
  assert (Hh : h2 !! lh = Some (headers_for api_key)).
  { apply lookup_new_dict, lookup_insert_eq. }
  rewrite Hp, Hh. cbn [format_opt]. fold url. fold req. fold out.
  destruct out as [h' [res|e]]; cbn [fst snd]; [|done].
  unfold mbind, result_bind.
  destruct (raise_for_status res); [|done].
  by destruct (json res).
Qed.

(** X10: the request of [query_notion_database] carries the headers of
    [build_headers(api_key)], the three entries with the bearer string, and
    goes to the query URL of the database. *)
Theorem query_notion_database_headers (database_id : string) (filter sorter : option loc)
    (api_key : option string) (w : World) (f s : gmap string pyval) :
  database_id <> "" ->
  heap w !! default default_filter filter = Some f ->
  heap w !! default default_sorter sorter = Some s ->
  exists req : Request,
    sent (query_database (Some database_id) filter sorter api_key w).1 =
      (sent w ++ [req])%list /\
    req_headers req = headers_for api_key /\
    req_headers req !! "Authorization" =
      Some (PStr ("Bearer " +:+ format_opt (opt_or api_key NOTION_API_KEY))) /\
    dom (req_headers req) =
      ({["Authorization"; "Notion-Version"; "Content-Type"]} : gset string).
Proof.
  intros Hid Hf Hs.
  rewrite (query_notion_database_result _ _ _ api_key _ _ _ Hid Hf Hs).
  cbn [fst sent]. eexists. split; [reflexivity|]. cbn [req_headers].
  split_and!; [reflexivity | reflexivity |].
  unfold build_headers. rewrite !dom_insert_L. set_solver.
Qed.

(** In the four statements that follow, [answer] is what [requests.post]
    gives to the call that [query_notion_database] makes: the URL of the
    database, and the references [lp] and [lh] to the new body and header
    objects, in the store that holds them. *)

(** X11: when the call of [requests.post] raises, a connection error or a
    timeout say, [query_notion_database] raises the same exception. *)
Theorem query_notion_database_client_raises (database_id : string)
    (filter sorter : option loc) (api_key : option string) (w : World)
    (f s : gmap string pyval) (e : exn) :
  database_id <> "" ->
  heap w !! default default_filter filter = Some f ->
  heap w !! default default_sorter sorter = Some s ->
  let lh := fresh (dom (heap w)) in
  let h1 := <[lh := headers_for api_key]> (heap w) in
  let lp := fresh (dom h1) in
  let h2 := <[lp := dict_or f s]> h1 in
  let url := build_url ("databases/" +:+ database_id +:+ "/query") in
  let req := {| req_method := "POST"; req_url := url;
                req_json := dict_or f s; req_headers := headers_for api_key |} in
  let answer :=
    (requests_post url lp lh {| heap := h2; sent := (sent w ++ [req])%list |}).2 in
  answer = Raise e ->
  (query_database (Some database_id) filter sorter api_key w).2 = Raise e.
Proof.
  intros Hid Hf Hs lh h1 lp h2 url req answer Hc.
  rewrite (query_notion_database_result _ _ _ api_key _ _ _ Hid Hf Hs).
  cbn [snd]. fold lh h1 lp h2 url req answer. rewrite Hc.
  reflexivity.
Qed.

(** X12: when the call of [requests.post] is answered with a 4xx or 5xx
    status, [query_notion_database] raises [HTTPError] with that status,
    whatever the body of the answer is. *)
Theorem query_notion_database_http_error (database_id : string)
    (filter sorter : option loc) (api_key : option string) (w : World)
    (f s : gmap string pyval) (res : Response) :
  database_id <> "" ->
  heap w !! default default_filter filter = Some f ->
  heap w !! default default_sorter sorter = Some s ->
  let lh := fresh (dom (heap w)) in
  let h1 := <[lh := headers_for api_key]> (heap w) in
  let lp := fresh (dom h1) in
  let h2 := <[lp := dict_or f s]> h1 in
  let url := build_url ("databases/" +:+ database_id +:+ "/query") in
  let req := {| req_method := "POST"; req_url := url;
                req_json := dict_or f s; req_headers := headers_for api_key |} in
  let answer :=
    (requests_post url lp lh {| heap := h2; sent := (sent w ++ [req])%list |}).2 in
  answer = Return res ->
  (400 <= status_code res < 600)%Z ->
  (query_database (Some database_id) filter sorter api_key w).2 =
    Raise (HTTPError (status_code res)).
Proof.
  intros Hid Hf Hs lh h1 lp h2 url req answer Hc Hst.
  rewrite (query_notion_database_result _ _ _ api_key _ _ _ Hid Hf Hs).
  cbn [snd]. fold lh h1 lp h2 url req answer. rewrite Hc.
  unfold mbind, result_bind, raise_for_status.
  destruct (Z.leb_spec 400 (status_code res)); [|lia].
  destruct (Z.ltb_spec (status_code res) 600); [|lia]. reflexivity.
Qed.

(** X13: when the call of [requests.post] is answered with a status outside
    400..599 and a body that decodes, [query_notion_database] returns that
    answer itself. *)
Theorem query_notion_database_returns (database_id : string)
    (filter sorter : option loc) (api_key : option string) (w : World)
    (f s : gmap string pyval) (res : Response) (body : pyval) :
  database_id <> "" ->
  heap w !! default default_filter filter = Some f ->
  heap w !! default default_sorter sorter = Some s ->
  let lh := fresh (dom (heap w)) in
  let h1 := <[lh := headers_for api_key]> (heap w) in
  let lp := fresh (dom h1) in
  let h2 := <[lp := dict_or f s]> h1 in
  let url := build_url ("databases/" +:+ database_id +:+ "/query") in
  let req := {| req_method := "POST"; req_url := url;
                req_json := dict_or f s; req_headers := headers_for api_key |} in
  let answer :=
    (requests_post url lp lh {| heap := h2; sent := (sent w ++ [req])%list |}).2 in
  answer = Return res ->
  ~ (400 <= status_code res < 600)%Z ->
  json res = Return body ->
  (query_database (Some database_id) filter sorter api_key w).2 = Return res.
Proof.
  intros Hid Hf Hs lh h1 lp h2 url req answer Hc Hst Hj.
  rewrite (query_notion_database_result _ _ _ api_key _ _ _ Hid Hf Hs).
  cbn [snd]. fold lh h1 lp h2 url req answer. rewrite Hc.
  unfold mbind, result_bind, raise_for_status. rewrite Hj.
  destruct (Z.leb_spec 400 (status_code res));
    destruct (Z.ltb_spec (status_code res) 600); try reflexivity. lia.
Qed.

(** X14: when the call of [requests.post] is answered with a status outside
    400..599 but [res.json()] raises, [query_notion_database] raises that
    exception: the body is decoded for the closing log call, so a success
    whose body is no JSON does not reach the caller. *)
Theorem query_notion_database_undecodable (database_id : string)
    (filter sorter : option loc) (api_key : option string) (w : World)
    (f s : gmap string pyval) (res : Response) (e : exn) :
  database_id <> "" ->
  heap w !! default default_filter filter = Some f ->
  heap w !! default default_sorter sorter = Some s ->
  let lh := fresh (dom (heap w)) in
  let h1 := <[lh := headers_for api_key]> (heap w) in
  let lp := fresh (dom h1) in
  let h2 := <[lp := dict_or f s]> h1 in
  let url := build_url ("databases/" +:+ database_id +:+ "/query") in
  let req := {| req_method := "POST"; req_url := url;
                req_json := dict_or f s; req_headers := headers_for api_key |} in
  let answer :=
    (requests_post url lp lh {| heap := h2; sent := (sent w ++ [req])%list |}).2 in
  answer = Return res ->
  ~ (400 <= status_code res < 600)%Z ->
  json res = Raise e ->
  (query_database (Some database_id) filter sorter api_key w).2 = Raise e.
Proof.
  intros Hid Hf Hs lh h1 lp h2 url req answer Hc Hst Hj.
  rewrite (query_notion_database_result _ _ _ api_key _ _ _ Hid Hf Hs).
  cbn [snd]. fold lh h1 lp h2 url req answer. rewrite Hc.
  unfold mbind, result_bind, raise_for_status. rewrite Hj.
  destruct (Z.leb_spec 400 (status_code res));
    destruct (Z.ltb_spec (status_code res) 600); try reflexivity. lia.
Qed.

(** ** update_notion_page *)

(** What the call gives for a non-empty sequence: body and headers are two
    new objects, one request went out, and the answer of the client is taken
    through [raise_for_status] only. *)
Lemma update_notion_page_result (page_id : option string)
    (properties : list NotionPageProperty) (api_key : option string) (w : World) :
  properties <> [] ->
  let body : gmap string pyval :=
    {["properties" := PDict (update_loop ∅ properties)]} in
  let lp := fresh (dom (heap w)) in
  let h1 := <[lp := body]> (heap w) in
  let lh := fresh (dom h1) in
  let h2 := <[lh := headers_for api_key]> h1 in
  let url := build_url ("pages/" +:+ format_opt page_id) in
  let req := {| req_method := "PATCH"; req_url := url;
                req_json := body; req_headers := headers_for api_key |} in
  let out := requests_patch url lp lh {| heap := h2; sent := (sent w ++ [req])%list |} in
  update_page page_id properties api_key w =
    ({| heap := out.1; sent := (sent w ++ [req])%list |},
     res ← out.2; _ ← raise_for_status res; Return res).
Proof.
  intros Hne body lp h1 lh h2 url req out.
  unfold update_notion_page, build_update_properties.
  destruct properties as [|p ps]; [done|]. cbn [length Nat.eqb].
  unfold mbind at 1 2 3 4 5. unfold M_bind, new_dict, http_send, lift.
  cbn [heap sent]. fold body. fold lp. fold h1. fold lh. fold h2.
  assert (Hh : h2 !! lh = Some (headers_for api_key)) by apply lookup_insert_eq.
  assert (Hp : h2 !! lp = Some body).
  { apply lookup_new_dict, lookup_insert_eq. }
  rewrite Hp, Hh. fold url. fold req. fold out.
  destruct out as [h' [res|e]]; cbn [fst snd]; [|done].
  unfold mbind, result_bind. by destruct (raise_for_status res).
Qed.

(** X15: with an empty sequence of properties [update_notion_page] raises
    the [ValueError] of [build_update_properties] and leaves the world as it
    was: no PATCH goes out, whatever the page id and the key are. *)
Theorem update_notion_page_empty (page_id api_key : option string) (w : World) :
  update_page page_id [] api_key w =
    (w, Raise (ValueError (PStr "properties can't be empty"))) /\
  sent (update_page page_id [] api_key w).1 = sent w.
Proof. split; reflexivity. Qed.

(** X16: with a non-empty sequence [update_notion_page] calls
    [requests.patch] once: with the page URL made of the page id as it was
    passed, an empty id included since none is rejected; with a reference
    to a body [{"properties": m}], [m] as [build_update_properties] makes
    it; and with a reference to the headers of [build_headers(api_key)].
    What the client does with the call, a send or an exception, is the
    client's. *)
Theorem update_notion_page_request (page_id : option string)
    (properties : list NotionPageProperty) (api_key : option string) (w : World) :
  properties <> [] ->
  exists (req : Request) (m : gmap string pyval) (lp lh : loc) (w1 : World),
    sent (update_page page_id properties api_key w).1 = (sent w ++ [req])%list /\
    req_method req = "PATCH" /\
    req_url req = "https://api.notion.com/v1/pages/" +:+ format_opt page_id /\
    req_json req = {["properties" := PDict m]} /\
    build_update_properties properties = Return (PDict (req_json req)) /\
    (forall k : string, m !! k = value <$> last_named k properties) /\
    req_headers req = headers_for api_key /\
    heap w1 !! lp = Some (req_json req) /\
    heap w1 !! lh = Some (req_headers req) /\
    heap (update_page page_id properties api_key w).1 =
      (requests_patch (req_url req) lp lh w1).1 /\
    (update_page page_id properties api_key w).2 =
      (res ← (requests_patch (req_url req) lp lh w1).2;
       _ ← raise_for_status res; Return res).
Proof.
  intros Hne. rewrite (update_notion_page_result _ _ _ _ Hne). cbn [fst snd sent heap].
  eexists. exists (update_loop ∅ properties). do 3 eexists.
  split; [reflexivity|].
  cbn [req_method req_url req_json req_headers].
  split_and!; try reflexivity.
  - unfold build_update_properties. by destruct properties.
  - intros k. rewrite update_loop_lookup, lookup_empty.
    by destruct (last_named k properties).
  - cbn [heap]. apply lookup_new_dict, lookup_insert_eq.
  - cbn [heap]. apply lookup_insert_eq.
Qed.

(** In the two statements that follow, [answer] is what [requests.patch]
    gives to the call that [update_notion_page] makes: the URL of the page,
    and the references [lp] and [lh] to the new body and header objects, in
    the store that holds them. *)

(** X17: when the call of [requests.patch] is answered with a status
    outside 400..599, [update_notion_page] returns that answer itself; the
    body is not decoded, so the answer comes back also when it holds no
    JSON. *)
Theorem update_notion_page_returns (page_id : option string)
    (properties : list NotionPageProperty) (api_key : option string) (w : World)
    (res : Response) :
  properties <> [] ->
  let body : gmap string pyval :=
    {["properties" := PDict (update_loop ∅ properties)]} in
  let lp := fresh (dom (heap w)) in
  let h1 := <[lp := body]> (heap w) in
  let lh := fresh (dom h1) in
  let h2 := <[lh := headers_for api_key]> h1 in
  let url := build_url ("pages/" +:+ format_opt page_id) in
  let req := {| req_method := "PATCH"; req_url := url;
                req_json := body; req_headers := headers_for api_key |} in
  let answer :=
    (requests_patch url lp lh {| heap := h2; sent := (sent w ++ [req])%list |}).2 in
  answer = Return res ->
  ~ (400 <= status_code res < 600)%Z ->
  (update_page page_id properties api_key w).2 = Return res.
Proof.
  intros Hne body lp h1 lh h2 url req answer Hc Hst.
  rewrite (update_notion_page_result _ _ _ _ Hne).
  cbn [snd]. fold body lp h1 lh h2 url req answer. rewrite Hc.
  unfold mbind, result_bind, raise_for_status.
  destruct (Z.leb_spec 400 (status_code res));
    destruct (Z.ltb_spec (status_code res) 600); try reflexivity. lia.
Qed.

(** X18: [update_notion_page] raises what the call of [requests.patch]
    raises, and raises [HTTPError] with the status when the call is answered
    with a 4xx or 5xx status. *)
Theorem update_notion_page_failures (page_id : option string)
    (properties : list NotionPageProperty) (api_key : option string) (w : World)
    (e : exn) :
  properties <> [] ->
  let body : gmap string pyval :=
    {["properties" := PDict (update_loop ∅ properties)]} in
  let lp := fresh (dom (heap w)) in
  let h1 := <[lp := body]> (heap w) in
  let lh := fresh (dom h1) in
  let h2 := <[lh := headers_for api_key]> h1 in
  let url := build_url ("pages/" +:+ format_opt page_id) in
  let req := {| req_method := "PATCH"; req_url := url;
                req_json := body; req_headers := headers_for api_key |} in
  let answer :=
    (requests_patch url lp lh {| heap := h2; sent := (sent w ++ [req])%list |}).2 in
  (answer = Raise e \/
   exists res : Response,
     answer = Return res /\ (400 <= status_code res < 600)%Z /\
     e = HTTPError (status_code res)) ->
  (update_page page_id properties api_key w).2 = Raise e.
Proof.
  intros Hne body lp h1 lh h2 url req answer Hr.
  rewrite (update_notion_page_result _ _ _ _ Hne).
  cbn [snd]. fold body lp h1 lh h2 url req answer.
  destruct Hr as [-> | (res & -> & Hst & ->)]; [reflexivity|].
  unfold mbind, result_bind, raise_for_status.
  destruct (Z.leb_spec 400 (status_code res)); [|lia].
  destruct (Z.ltb_spec (status_code res) 600); [|lia]. reflexivity.
Qed.

(** X19: [update_notion_page] writes to no dict that existed before the
    call, for a client that writes at most to the two objects it is
    handed: body and headers are new objects. *)
Theorem update_notion_page_frame (page_id : option string)
    (properties : list NotionPageProperty) (api_key : option string) (w : World)
    (l : loc) (d : gmap string pyval) :
  (forall (url : string) (payload headers : loc) (w0 : World) (l0 : loc),
     l0 <> payload -> l0 <> headers -> is_Some (heap w0 !! l0) ->
     (requests_patch url payload headers w0).1 !! l0 = heap w0 !! l0) ->
  heap w !! l = Some d ->
  heap (update_page page_id properties api_key w).1 !! l = Some d.
Proof.
  intros Hfr Hl. destruct properties as [|p ps]; [done|].
  rewrite update_notion_page_result by done. cbn [fst heap].
  set (body := ({["properties" := PDict (update_loop ∅ (p :: ps))]}
                : gmap string pyval)).
  set (lp := fresh (dom (heap w))). set (h1 := <[lp := body]> (heap w)).
  set (lh := fresh (dom h1)). set (h2 := <[lh := headers_for api_key]> h1).
  assert (Hl1 : h1 !! l = Some d) by by apply lookup_new_dict.
  assert (Hl2 : h2 !! l = Some d) by by apply lookup_new_dict.
  assert (Hlp : l <> lp) by (apply fresh_not_allocated; by rewrite Hl).
  assert (Hlh : l <> lh) by (apply fresh_not_allocated; by rewrite Hl1).
  rewrite Hfr; cbn [heap]; [done..|]. by rewrite Hl2.
Qed.

End ClientFacts.

(** * The statements at the values of the test suite *)

Lemma build_single_sorter_fragment_witness :
  "Name" <> "" /\
  build_single_sorter (PStr "Name") (PSortDirection descending) =
    Return (PDict {["sorts" :=
      PList [PDict {["property" := PStr "Name";
                     "direction" := PStr "descending"]}]]}).
Proof.
  split; [discriminate|].
  apply (build_single_sorter_fragment "Name" descending). discriminate.
Defined.

Lemma build_single_sorter_validation_order_witness :
  (isinstance_SortDirection (PFloat 3.3%float) = false /\
   build_single_sorter (PStr "") (PFloat 3.3%float) =
     Raise (TypeError (PStr "Direction must be an instance of SortDirection"))) /\
  (isinstance_SortDirection (PSortDirection ascending) = true /\
   truthy (PStr "") = false /\
   build_single_sorter (PStr "") (PSortDirection ascending) =
     Raise (ValueError (PStr "Property name can't be empty"))).
Proof.
  split.
  - split; [reflexivity|].
    apply (build_single_sorter_validation_order (PStr "") (PFloat 3.3%float)).
    reflexivity.
  - split; [reflexivity|]. split; [reflexivity|].
    apply (build_single_sorter_validation_order (PStr "") (PSortDirection ascending));
      reflexivity.
Defined.

Lemma build_equal_filter_kinds_witness :
  "Date" <> "" /\ "No Suggar" <> "" /\
  datetime_in_range example_datetime /\
  datetime_in_range (mk_datetime 2023 4 29 23 59 59 999999) /\
  build_equal_filter (PStr "Date") (PDatetime example_datetime) =
    Return (PDict {["filter" :=
      PDict {["property" := PStr "Date";
              "date" := PDict {["equals" := PStr "2023-04-29"]}]}]}) /\
  build_equal_filter (PStr "Date")
    (PDatetime (mk_datetime 2023 4 29 23 59 59 999999)) =
    Return (PDict {["filter" :=
      PDict {["property" := PStr "Date";
              "date" := PDict {["equals" := PStr "2023-04-29"]}]}]}) /\
  build_equal_filter (PStr "Date") (PStr "No Suggar") =
    Return (PDict {["filter" :=
      PDict {["property" := PStr "Date";
              "rich_text" := PDict {["equals" := PStr "No Suggar"]}]}]}).
Proof.
  assert (Hn : "Date" <> "") by discriminate.
  assert (Hs : "No Suggar" <> "") by discriminate.
  assert (Hr : datetime_in_range example_datetime).
  { unfold datetime_in_range. simpl. lia. }
  assert (Hr' : datetime_in_range (mk_datetime 2023 4 29 23 59 59 999999)).
  { unfold datetime_in_range. simpl. lia. }
  split; [exact Hn|]. split; [exact Hs|]. split; [exact Hr|]. split; [exact Hr'|].
  destruct (build_equal_filter_kinds "Date" Hn) as [Hdate Hstr].
  split; [exact (Hdate example_datetime Hr)|].
  split; [exact (Hdate _ Hr') | exact (Hstr "No Suggar" Hs)].
Defined.

Lemma build_equal_filter_rejects_witness :
  build_equal_filter (PStr "") (PStr "x") =
    Raise (ValueError (PStr "Property name can't be empty")) /\
  truthy (PStr "Propertie") = true /\ empty_value (PInt 0) /\
  build_equal_filter (PStr "Propertie") (PInt 0) =
    Raise (ValueError (PStr "Value can't be empty")).
Proof.
  assert (Hv : empty_value (PInt 0)) by (right; left; reflexivity).
  split.
  - apply (build_equal_filter_rejects (PStr "") (PStr "x")). left. reflexivity.
  - split; [reflexivity|]. split; [exact Hv|].
    apply (build_equal_filter_rejects (PStr "Propertie") (PInt 0));
      [reflexivity | exact Hv].
Defined.

Lemma build_equal_filter_other_kinds_witness :
  "Streak" <> "" /\ truthy (PInt 7) = true /\
  isinstance_str (PInt 7) = false /\ isinstance_datetime (PInt 7) = false /\
  build_equal_filter (PStr "Streak") (PInt 7) =
    Return (PDict {["filter" := PDict {["property" := PStr "Streak"]}]}).
Proof.
  split; [discriminate|]. do 3 (split; [reflexivity|]).
  apply (build_equal_filter_other_kinds "Streak" (PInt 7));
    [discriminate | reflexivity..].
Defined.

Lemma build_update_properties_last_write_wins_witness :
  example_properties <> [] /\
  exists m : gmap string pyval,
    build_update_properties example_properties =
      Return (PDict {["properties" := PDict m]}) /\
    (forall k : string, m !! k = value <$> last_named k example_properties) /\
    dom m = list_to_set (name <$> example_properties).
Proof.
  split; [discriminate|].
  apply (build_update_properties_last_write_wins example_properties).
  discriminate.
Defined.

Lemma build_headers_three_entries_witness :
  "test_key" <> "" /\
  build_headers (Some "secret") (Some "test_key") !! "Authorization" =
    Some (PStr "Bearer test_key") /\
  build_headers (Some "secret") None !! "Authorization" =
    Some (PStr "Bearer secret") /\
  build_headers None None !! "Authorization" = Some (PStr "Bearer None") /\
  _log_headers (build_headers (Some "secret") (Some "test_key")) !! "Content-Type" =
    Some (PStr "application/json") /\
  PStr "application/json" <> PStr ("Bearer " +:+ "test_key").
Proof.
  split; [discriminate|]. split; [|split; [|split; [|split]]].
  - apply (build_headers_three_entries (Some "secret") (Some "test_key"));
      [reflexivity | discriminate].
  - apply (build_headers_three_entries (Some "secret") None). left. reflexivity.
  - apply (build_headers_three_entries None None). left. reflexivity.
  - reflexivity.
  - destruct (build_headers_three_entries (Some "secret") (Some "test_key"))
      as (_ & _ & _ & _ & _ & _ & _ & Hval).
    exact (proj1 (Hval "Content-Type" (PStr "application/json") eq_refl)).
Defined.

(** With a configured key and the empty string supplied as [api_key], the
    bearer string carries the configured key, not the supplied one; and with
    the key ["application/json"] the redacted mapping holds the key value,
    as its content type. *)
Lemma build_headers_counterexample :
  (build_headers (Some "secret") (Some "") !! "Authorization" =
     Some (PStr "Bearer secret") /\
   build_headers (Some "secret") (Some "") !! "Authorization" <>
     Some (PStr (Authorization_if_supplied (Some "secret") (Some "")))) /\
  (build_headers None (Some "application/json") !! "Authorization" =
     Some (PStr "Bearer application/json") /\
   _log_headers (build_headers None (Some "application/json")) !! "Content-Type" =
     Some (PStr "application/json")).
Proof.
  split; split; try reflexivity. vm_compute. discriminate.
Qed.

Lemma query_notion_database_body_witness :
  "test_key" <> "" /\
  heap example_world !! 3%positive = Some example_filter /\
  heap example_world !! 4%positive = Some example_sorter /\
  exists req : Request,
    sent (query_notion_database (Some "test_key") client_ok (Some "test_key")
            (Some 3%positive) (Some 4%positive) None example_world).1 = [req] /\
    req_json req = dict_or example_filter example_sorter.
Proof.
  split; [discriminate|]. do 2 (split; [reflexivity|]).
  destruct (query_notion_database_body (Some "test_key") client_ok "test_key"
              (Some 3%positive) (Some 4%positive) None example_world
              example_filter example_sorter)
    as (req & Hsent & _ & _ & Hjson & _); [discriminate | reflexivity..|].
  exists req. split; [exact Hsent | exact Hjson].
Defined.

Lemma query_notion_database_empty_id_witness :
  query_notion_database None client_ok (Some "") None None None initial_world =
    (initial_world, Raise (ValueError (PStr ""))) /\
  sent (query_notion_database None client_ok None None None None initial_world).1 = [].
Proof.
  split.
  - apply (query_notion_database_empty_id None client_ok (Some "")). right. reflexivity.
  - apply (query_notion_database_empty_id None client_ok None). left. reflexivity.
Defined.

Lemma client_clobber_frame (url : string) (payload headers : loc) (w : World) (l : loc) :
  l <> payload -> l <> headers -> is_Some (heap w !! l) ->
  (client_clobber url payload headers w).1 !! l = heap w !! l.
Proof. intros Hp _ _. simpl. by apply lookup_insert_ne. Qed.

Lemma query_notion_database_no_mutation_witness :
  heap example_world !! 3%positive = Some example_filter /\
  heap example_world !! default_sorter = Some ∅ /\
  let w' := (query_notion_database (Some "secret") client_clobber (Some "test_key")
               (Some 3%positive) None None example_world).1 in
  heap w' !! 3%positive = Some example_filter /\
  heap w' !! default_sorter = Some ∅.
Proof.
  do 2 (split; [reflexivity|]).
  destruct (query_notion_database_no_mutation (Some "secret") client_clobber
              client_clobber_frame (Some "test_key") (Some 3%positive) None None
              example_world example_filter ∅) as (Hf & Hs & _);
    [reflexivity..|].
  split; [exact Hf | exact Hs].
Defined.

(** * The further properties at sample values *)

Lemma build_equal_filter_shape_witness :
  build_equal_filter (PInt 5) (PStr "teste") =
    Return (PDict {["filter" :=
      PDict {["property" := PInt 5;
              "rich_text" := PDict {["equals" := PStr "teste"]}]}]}) /\
  exists inner : gmap string pyval,
    inner !! "property" = Some (PInt 5) /\
    ~ (is_Some (inner !! "date") /\ is_Some (inner !! "rich_text")).
Proof.
  split; [reflexivity|].
  destruct (build_equal_filter_shape (PInt 5) (PStr "teste") _ eq_refl)
    as (inner & _ & Hp & _ & _ & Hex & _).
  exists inner. split; [exact Hp | exact Hex].
Defined.

Lemma build_single_sorter_returns_iff_witness :
  truthy (PInt 5) = true /\
  build_single_sorter (PInt 5) (PSortDirection descending) =
    Return (PDict {["sorts" :=
      PList [PDict {["property" := PInt 5;
                     "direction" := PStr "descending"]}]]}) /\
  build_single_sorter_default (PInt 5) =
    Return (PDict {["sorts" :=
      PList [PDict {["property" := PInt 5;
                     "direction" := PStr "ascending"]}]]}).
Proof.
  split; [reflexivity|].
  destruct (build_single_sorter_returns_iff (PInt 5) (PSortDirection descending))
    as [_ H].
  exact (H descending eq_refl eq_refl).
Defined.

Lemma build_update_properties_app_witness :
  example_properties <> [] /\
  exists a b : gmap string pyval,
    build_update_properties example_properties =
      Return (PDict {["properties" := PDict a]}) /\
    build_update_properties example_properties =
      Return (PDict {["properties" := PDict b]}) /\
    build_update_properties (example_properties ++ example_properties) =
      Return (PDict {["properties" := PDict (dict_or a b)]}).
Proof.
  split; [discriminate|].
  apply (build_update_properties_app example_properties example_properties);
    discriminate.
Defined.

Lemma build_update_properties_permutation_witness :
  NoDup (name <$> [mk_property "Streak" (PInt 1); mk_property "Name" (PStr "value")]) /\
  [mk_property "Streak" (PInt 1); mk_property "Name" (PStr "value")] ≡ₚ
    [mk_property "Name" (PStr "value"); mk_property "Streak" (PInt 1)] /\
  build_update_properties
    [mk_property "Streak" (PInt 1); mk_property "Name" (PStr "value")] =
  build_update_properties
    [mk_property "Name" (PStr "value"); mk_property "Streak" (PInt 1)].
Proof.
  assert (Hnd : NoDup (name <$> [mk_property "Streak" (PInt 1);
                                 mk_property "Name" (PStr "value")])).
  { simpl. repeat (apply NoDup_cons_2; [set_solver|]). apply NoDup_nil_2. }
  split; [exact Hnd|]. split; [apply perm_swap|].
  apply build_update_properties_permutation; [exact Hnd | apply perm_swap].
Defined.

Lemma build_update_properties_size_witness :
  build_update_properties example_properties =
    Return (PDict {["properties" := PDict (update_loop ∅ example_properties)]}) /\
  size (update_loop ∅ example_properties) <= length example_properties.
Proof.
  split; [reflexivity|].
  apply (build_update_properties_size example_properties
           (update_loop ∅ example_properties) eq_refl).
Defined.

Lemma build_fragments_merge_witness :
  build_equal_filter (PStr "Habit") (PStr "teste") = Return (PDict example_filter) /\
  build_single_sorter (PStr "Date") (PSortDirection descending) =
    Return (PDict example_sorter) /\
  dom (dict_or example_filter example_sorter) = ({["filter"; "sorts"]} : gset string) /\
  dict_or example_filter example_sorter = dict_or example_sorter example_filter.
Proof.
  do 2 (split; [reflexivity|]).
  destruct (build_fragments_merge (PStr "Habit") (PStr "teste") (PStr "Date")
              (PSortDirection descending) example_filter example_sorter
              eq_refl eq_refl) as (_ & _ & _ & _ & Hdom & Hcomm).
  split; [exact Hdom | exact Hcomm].
Defined.

Lemma query_notion_database_headers_witness :
  "test_key" <> "" /\
  heap example_world !! 3%positive = Some example_filter /\
  heap example_world !! 4%positive = Some example_sorter /\
  exists req : Request,
    sent (query_notion_database (Some "secret") client_ok (Some "test_key")
            (Some 3%positive) (Some 4%positive) (Some "override") example_world).1 =
      [req] /\
    req_headers req = build_headers (Some "secret") (Some "override").
Proof.
  split; [discriminate|]. do 2 (split; [reflexivity|]).
  destruct (query_notion_database_headers (Some "secret") client_ok "test_key"
              (Some 3%positive) (Some 4%positive) (Some "override") example_world
              example_filter example_sorter)
    as (req & Hsent & Hh & _); [discriminate | reflexivity..|].
  exists req. split; [exact Hsent | exact Hh].
Defined.

Lemma query_notion_database_client_raises_witness :
  "test_key" <> "" /\
  heap initial_world !! default_filter = Some ∅ /\
  heap initial_world !! default_sorter = Some ∅ /\
  (query_notion_database None (client_raising ConnectionError) (Some "test_key")
     None None None initial_world).2 = Raise ConnectionError.
Proof.
  split; [discriminate|]. do 2 (split; [reflexivity|]).
  apply (query_notion_database_client_raises None (client_raising ConnectionError)
           "test_key" None None None initial_world ∅ ∅ ConnectionError);
    [discriminate | reflexivity..].
Defined.

Lemma query_notion_database_http_error_witness :
  "missing" <> "" /\
  heap initial_world !! default_filter = Some ∅ /\
  heap initial_world !! default_sorter = Some ∅ /\
  (400 <= status_code not_found_response < 600)%Z /\
  (query_notion_database None
     (client_missing "https://api.notion.com/v1/databases/missing/query")
     (Some "missing") None None None initial_world).2 = Raise (HTTPError 404).
Proof.
  assert (Hst : (400 <= status_code not_found_response < 600)%Z) by (simpl; lia).
  split; [discriminate|]. do 2 (split; [reflexivity|]). split; [exact Hst|].
  apply (query_notion_database_http_error None
           (client_missing "https://api.notion.com/v1/databases/missing/query")
           "missing" None None None initial_world ∅ ∅ not_found_response);
    [discriminate | reflexivity.. | exact Hst].
Defined.

Lemma query_notion_database_returns_witness :
  "test_key" <> "" /\
  heap initial_world !! default_filter = Some ∅ /\
  heap initial_world !! default_sorter = Some ∅ /\
  ~ (400 <= status_code ok_response < 600)%Z /\
  json ok_response = Return (PDict ∅) /\
  (query_notion_database None
     (client_missing "https://api.notion.com/v1/databases/missing/query")
     (Some "test_key") None None None initial_world).2 = Return ok_response.
Proof.
  assert (Hst : ~ (400 <= status_code ok_response < 600)%Z) by (simpl; lia).
  split; [discriminate|]. do 2 (split; [reflexivity|]). split; [exact Hst|].
  split; [reflexivity|].
  apply (query_notion_database_returns None
           (client_missing "https://api.notion.com/v1/databases/missing/query")
           "test_key" None None None initial_world ∅ ∅ ok_response (PDict ∅));
    [discriminate | reflexivity.. | exact Hst | reflexivity].
Defined.

Lemma query_notion_database_undecodable_witness :
  "test_key" <> "" /\
  heap initial_world !! default_filter = Some ∅ /\
  heap initial_world !! default_sorter = Some ∅ /\
  ~ (400 <= status_code undecodable_response < 600)%Z /\
  json undecodable_response = Raise JSONDecodeError /\
  (query_notion_database None (client_answering undecodable_response)
     (Some "test_key") None None None initial_world).2 = Raise JSONDecodeError.
Proof.
  assert (Hst : ~ (400 <= status_code undecodable_response < 600)%Z)
    by (simpl; lia).
  split; [discriminate|]. do 2 (split; [reflexivity|]). split; [exact Hst|].
  split; [reflexivity|].
  apply (query_notion_database_undecodable None
           (client_answering undecodable_response) "test_key" None None None
           initial_world ∅ ∅ undecodable_response JSONDecodeError);
    [discriminate | reflexivity.. | exact Hst | reflexivity].
Defined.

Lemma update_notion_page_request_witness :
  example_properties <> [] /\
  exists req : Request,
    sent (update_notion_page None client_ok (Some "") example_properties None
            initial_world).1 = [req] /\
    req_method req = "PATCH" /\
    req_url req = "https://api.notion.com/v1/pages/" /\
    build_update_properties example_properties = Return (PDict (req_json req)).
Proof.
  split; [discriminate|].
  destruct (update_notion_page_request None client_ok (Some "") example_properties
              None initial_world)
    as (req & m & lp & lh & w1 & Hsent & Hm & Hurl & _ & Hb & _); [discriminate|].
  exists req. split; [exact Hsent|]. split; [exact Hm|]. split; [exact Hurl | exact Hb].
Defined.

Lemma update_notion_page_returns_witness :
  example_properties <> [] /\
  ~ (400 <= status_code undecodable_response < 600)%Z /\
  (update_notion_page None (client_answering undecodable_response)
     (Some "f7b7c638") example_properties None initial_world).2 =
    Return undecodable_response.
Proof.
  assert (Hst : ~ (400 <= status_code undecodable_response < 600)%Z)
    by (simpl; lia).
  split; [discriminate|]. split; [exact Hst|].
  apply (update_notion_page_returns None (client_answering undecodable_response)
           (Some "f7b7c638") example_properties None initial_world
           undecodable_response);
    [discriminate | reflexivity | exact Hst].
Defined.

Lemma update_notion_page_failures_witness :
  example_properties <> [] /\
  (update_notion_page None (client_raising Timeout) (Some "f7b7c638")
     example_properties None initial_world).2 = Raise Timeout /\
  (update_notion_page None
     (client_missing "https://api.notion.com/v1/pages/f7b7c638") (Some "f7b7c638")
     example_properties None initial_world).2 = Raise (HTTPError 404).
Proof.
  split; [discriminate|]. split.
  - apply (update_notion_page_failures None (client_raising Timeout)
             (Some "f7b7c638") example_properties None initial_world Timeout);
      [discriminate | left; reflexivity].
  - apply (update_notion_page_failures None
             (client_missing "https://api.notion.com/v1/pages/f7b7c638")
             (Some "f7b7c638") example_properties None initial_world
             (HTTPError 404)); [discriminate|].
    right. exists not_found_response.
    split; [reflexivity|]. split; [simpl; lia | reflexivity].
Defined.

Lemma update_notion_page_frame_witness :
  heap example_world !! 3%positive = Some example_filter /\
  heap (update_notion_page None client_clobber (Some "f7b7c638")
          example_properties None example_world).1 !! 3%positive =
    Some example_filter.
Proof.
  split; [reflexivity|].
  apply (update_notion_page_frame None client_clobber (Some "f7b7c638")
           example_properties None example_world 3%positive example_filter);
    [exact client_clobber_frame | reflexivity].
Defined.
